(** * The chat room's presence and broadcast handlers (src/app.py)

    A shallow embedding of the Socket.IO event handlers of [app.py] and of
    the [/api/check_username] route, with the properties of the in-memory
    [connected_users] table and of the events each handler emits.

    What is modelled, and how:
    - [connected_users] is a Python dict [{sid: username}].  Python dicts
      keep insertion order and [list(connected_users.values())] exposes it,
      so the table is an association list with the dict's update discipline.
    - a handler runs in a small monad that threads the table, records the
      effects in program order ([print], calls of the Base44 client, [emit])
      and carries Python exceptions.
    - the Base44 client and the clock are outside the program: a handler
      reads the outcome of each remote call from a [Base44Client] record.
    - event payloads sent by the page are JSON objects whose fields are
      strings ([{ username }], [{ message: messageText }]); a payload that
      is no object, on which [data[key]] raises [TypeError], is outside
      the model.
    - the [try] blocks of [check_username] and [handle_user_registration]
      are written with braces in the source (lines 259, 284, 287), which
      Python rejects when it loads the file; they are read as the
      [try]/[except] statements their [except] clauses close, and what
      rests on that reading is said where it does. *)

From stdpp Require Import base strings list gmap.

Local Open Scope string_scope.
Local Open Scope list_scope.
Local Open Scope stdpp_scope.

(** ** JSON values carried by events and by the Base44 API *)

#[local] Unset Elimination Schemes.
Inductive json : Type :=
  | JNull
  | JBool (b : bool)
  | JNum (n : Z)
  | JStr (s : string)
  | JList (items : list json)
  | JObj (fields : list (string * json)).
#[local] Set Elimination Schemes.

(** ** Python dictionaries with insertion order *)

Module PyDict.
Section ops.
Context {K V : Type} `{EqDecision K}.

(** [d.get(k)] *)
Fixpoint get (d : list (K * V)) (k : K) : option V :=
  match d with
  | [] => None
  | (k', v) :: d' => if decide (k' = k) then Some v else get d' k
  end.

(** [d[k] = v]: an existing key keeps its place, a new key goes last. *)
Fixpoint set (d : list (K * V)) (k : K) (v : V) : list (K * V) :=
  match d with
  | [] => [(k, v)]
  | (k', v') :: d' =>
      if decide (k' = k) then (k, v) :: d' else (k', v') :: set d' k v
  end.

(** the table left by [d.pop(k, None)] *)
Fixpoint remove (d : list (K * V)) (k : K) : list (K * V) :=
  match d with
  | [] => []
  | (k', v') :: d' =>
      if decide (k' = k) then remove d' k else (k', v') :: remove d' k
  end.

(** [list(d.values())] and [list(d.keys())] *)
Definition values (d : list (K * V)) : list V := d.*2.
Definition keys (d : list (K * V)) : list K := d.*1.

(** The entries of every key but [k], in order. *)
Definition others (k : K) (d : list (K * V)) : list (K * V) :=
  filter (λ kv, kv.1 ≠ k) d.
End ops.
End PyDict.

(** ** Effects of a handler *)

Definition sid := string.

Inductive exn : Type :=
  | KeyError (key : string)
  | RequestException (msg : string).

(** One call of Flask-SocketIO's [emit(event, args, broadcast=, include_self=)]
    ([broadcast] defaults to [False], [include_self] to [True]). *)
Record emit_call : Type := Emitted {
  event : string;
  args : option json;
  broadcast : bool;
  include_self : bool
}.

Inductive store_call : Type :=
  | get_messages_call
  | post_message_call (username message : string)
  | is_username_taken_call (username : string).

Inductive effect : Type :=
  | Print (line : string)
  | Request (c : store_call)
  | Emit (request_sid : sid) (e : emit_call).

(** Outcome of a remote call: the method returns, or [requests] raises a
    [RequestException] whose text is [msg].  ([is_username_taken] also takes
    [len(response.json())]; the [TypeError] of a reply without a length is
    not among these outcomes.) *)
Inductive response (A : Type) : Type :=
  | Ok (a : A)
  | Failed (msg : string).
Arguments Ok {A} a.
Arguments Failed {A} msg.

Record Base44Client : Type := {
  get_messages : response json;
  post_message : string → string → response json;
  is_username_taken : string → response bool
}.

Inductive outcome (A : Type) : Type :=
  | Returned (a : A)
  | Raised (e : exn).
Arguments Returned {A} a.
Arguments Raised {A} e.

(** A computation over the [connected_users] table. *)
Definition M (A : Type) : Type :=
  list (sid * string) → outcome A * list (sid * string) * list effect.

Definition ret {A} (a : A) : M A := λ users, (Returned a, users, []).

Definition bind {A B} (m : M A) (k : A → M B) : M B := λ users,
  match m users with
  | (Returned a, users', log) =>
      let '(r, users'', log') := k a users' in (r, users'', log ++ log')
  | (Raised e, users', log) => (Raised e, users', log)
  end.

#[global] Instance M_ret : MRet M := @ret.
#[global] Instance M_bind : MBind M := λ A B k m, bind m k.

Definition raise {A} (e : exn) : M A := λ users, (Raised e, users, []).

(** [try: body except RequestException as e: handler(str(e))] *)
Definition try_except {A} (body : M A) (handler : string → M A) : M A :=
  λ users,
  match body users with
  | (Raised (RequestException msg), users', log) =>
      let '(r, users'', log') := handler msg users' in (r, users'', log ++ log')
  | other => other
  end.

Definition tell (e : effect) : M unit := λ users, (Returned (), users, [e]).

Definition print (line : string) : M unit := tell (Print line).

Definition remote {A} (c : store_call) (r : response A) : M A := λ users,
  match r with
  | Ok a => (Returned a, users, [Request c])
  | Failed msg => (Raised (RequestException msg), users, [Request c])
  end.

(** [data[key]] on a payload that is a JSON object *)
Definition subscript (data : gmap string string) (key : string) : M string :=
  match data !! key with
  | Some v => ret v
  | None => raise (KeyError key)
  end.

(** Python truth of the result of [connected_users.get(sid)]: [None] and
    the empty string are false. *)
Definition truthy (username : option string) : option string :=
  match username with
  | Some "" => None
  | other => other
  end.

(** Operations on [connected_users]. *)
Definition users_get (k : sid) : M (option string) :=
  λ users, (Returned (PyDict.get users k), users, []).
Definition users_set (k : sid) (v : string) : M unit :=
  λ users, (Returned (), PyDict.set users k v, []).
Definition users_pop (k : sid) : M (option string) :=
  λ users, (Returned (PyDict.get users k), PyDict.remove users k, []).
Definition users_values : M (list string) :=
  λ users, (Returned (PyDict.values users), users, []).

(** ** The handlers *)

Section handlers.
(** The module-level client [base44], [datetime.utcnow().isoformat()] at the
    time of the call, and Flask's [request.sid]. *)
Context (base44 : Base44Client) (utcnow_isoformat : string) (request_sid : sid).

Definition emit (event : string) (args : option json)
    (broadcast include_self : bool) : M unit :=
  tell (Emit request_sid (Emitted event args broadcast include_self)).

(** [{'message': text, 'type': 'system'}] *)
Definition system_message (text : string) : json :=
  JObj [("message", JStr text); ("type", JStr "system")].

(** [@app.route('/api/check_username')]: the JSON body and the status. *)
Definition check_username (request_args : gmap string string) : M (json * Z) :=
  let username_to_check := request_args !! "username" in
  match truthy username_to_check with
  | None =>
      mret (JObj [("error", JStr "Username parameter is required")], 400%Z)
  | Some username_to_check =>
      try_except
        (is_taken ← remote (is_username_taken_call username_to_check)
                           (is_username_taken base44 username_to_check);
         mret (JObj [("is_taken", JBool is_taken)], 200%Z))
        (λ e, mret (JObj [("error", JStr e)], 500%Z))
  end.

(** [@socketio.on('connect')] *)
Definition handle_connect : M unit :=
  print ("Client connected: " +:+ request_sid).

(** [@socketio.on('register_user')] *)
Definition handle_user_registration (data : gmap string string) : M unit :=
  username ← subscript data "username";
  users_set request_sid username;;
  emit "receive_message"
       (Some (system_message (username +:+ " has joined the chat."))) true true;;
  users ← users_values;
  emit "update_user_list" (Some (JList (JStr <$> users))) true true;;
  try_except
    (history ← remote get_messages_call (get_messages base44);
     emit "registration_success" (Some (JObj [("history", history)])) false true)
    (λ e,
     print ("Error fetching history: " +:+ e);;
     emit "registration_success" (Some (JObj [("history", JList [])])) false true).

(** [@socketio.on('new_message')] *)
Definition handle_new_message (data : gmap string string) : M unit :=
  username ← users_get request_sid;
  match truthy username with
  | Some username =>
      message_text ← subscript data "message";
      try_except
        (remote (post_message_call username message_text)
                (post_message base44 username message_text);;
         emit "receive_message"
              (Some (JObj [("username", JStr username);
                           ("message", JStr message_text);
                           ("timestamp", JStr (utcnow_isoformat +:+ "Z"))]))
              true true)
        (λ e,
         print ("Error posting message to Base44: " +:+ e);;
         emit "receive_message"
              (Some (system_message "Error: Could not send message.")) false true)
  | None => mret ()
  end.

(** [@socketio.on('typing')] *)
Definition handle_typing : M unit :=
  username ← users_get request_sid;
  match truthy username with
  | Some username =>
      emit "show_typing" (Some (JObj [("username", JStr username)])) true false
  | None => mret ()
  end.

(** [@socketio.on('stop_typing')] *)
Definition handle_stop_typing : M unit :=
  emit "hide_typing" None true false.

(** [@socketio.on('disconnect')] *)
Definition handle_disconnect : M unit :=
  username ← users_pop request_sid;
  match truthy username with
  | Some username =>
      emit "receive_message"
           (Some (system_message (username +:+ " has left the chat."))) true true;;
      users ← users_values;
      emit "update_user_list" (Some (JList (JStr <$> users))) true true
  | None => mret ()
  end;;
  print ("Client disconnected: " +:+ request_sid).

End handlers.

(** ** The events the handlers emit *)

(** The join and leave notices, broadcast to everyone. *)
Definition joined (u : string) : emit_call :=
  Emitted "receive_message"
          (Some (system_message (u +:+ " has joined the chat."))) true true.
Definition left_chat (u : string) : emit_call :=
  Emitted "receive_message"
          (Some (system_message (u +:+ " has left the chat."))) true true.
(** [update_user_list] with [list(connected_users.values())]. *)
Definition user_list (users : list (sid * string)) : emit_call :=
  Emitted "update_user_list" (Some (JList (JStr <$> PyDict.values users)))
          true true.
(** The history, sent to the caller alone. *)
Definition registration_success (history : json) : emit_call :=
  Emitted "registration_success" (Some (JObj [("history", history)]))
          false true.
(** The notice of a failed post, sent to the caller alone. *)
Definition could_not_send : emit_call :=
  Emitted "receive_message"
          (Some (system_message "Error: Could not send message.")) false true.
(** A relayed chat message, broadcast to everyone. *)
Definition message_received (u text stamp : string) : emit_call :=
  Emitted "receive_message"
          (Some (JObj [("username", JStr u); ("message", JStr text);
                       ("timestamp", JStr stamp)])) true true.

(** ** The server as a whole *)

(** The events a client can send ([connect] and [disconnect] come from the
    transport). *)
Inductive inbound : Type :=
  | connect
  | register_user (data : gmap string string)
  | new_message (data : gmap string string)
  | typing
  | stop_typing
  | disconnect.

Definition dispatch (base44 : Base44Client) (utcnow_isoformat : string)
    (request_sid : sid) (ev : inbound) : M unit :=
  match ev with
  | connect => handle_connect request_sid
  | register_user data => handle_user_registration base44 request_sid data
  | new_message data =>
      handle_new_message base44 utcnow_isoformat request_sid data
  | typing => handle_typing request_sid
  | stop_typing => handle_stop_typing request_sid
  | disconnect => handle_disconnect request_sid
  end.

(** One delivery of an event to the server, with what the outside world
    answers while it is handled. *)
Record request : Type := Req {
  req_base44 : Base44Client;
  req_utcnow : string;
  req_sid : sid;
  req_event : inbound
}.

Definition handle (rq : request) : M unit :=
  dispatch (req_base44 rq) (req_utcnow rq) (req_sid rq) (req_event rq).

Definition result_of {A} (m : M A) (users : list (sid * string)) : outcome A :=
  (m users).1.1.
Definition users_after {A} (m : M A) (users : list (sid * string))
    : list (sid * string) :=
  (m users).1.2.
Definition log_of {A} (m : M A) (users : list (sid * string)) : list effect :=
  (m users).2.

(** Events are handled one at a time; an exception ends the handler and
    leaves the table as the handler left it. *)
Fixpoint serve (rqs : list request) (users : list (sid * string))
    : list (sid * string) * list effect :=
  match rqs with
  | [] => (users, [])
  | rq :: rqs' =>
      let '(users', log') := serve rqs' (users_after (handle rq) users) in
      (users', log_of (handle rq) users ++ log')
  end.

(** The [emit] calls and the Base44 calls of a log, in order. *)
Definition emitted (log : list effect) : list emit_call :=
  omap (λ e, match e with Emit _ c => Some c | _ => None end) log.
Definition requested (log : list effect) : list store_call :=
  omap (λ e, match e with Request c => Some c | _ => None end) log.

(** The argument lists of the [update_user_list] events of a log. *)
Definition user_lists (log : list effect) : list (option json) :=
  omap (λ e, match e with
             | Emit _ c =>
                 if decide (event c = "update_user_list") then Some (args c)
                 else None
             | _ => None
             end) log.

(** Who is sent an [emit] made while handling an event of [request_sid],
    when [connections] are the clients the transport holds: a broadcast goes
    to all of them, without the sender under [include_self=False]; anything
    else goes to the room of the sender's own sid. *)
Definition recipients (connections : list sid) (request_sid : sid)
    (e : emit_call) : list sid :=
  if broadcast e then
    if include_self e then connections
    else filter (λ c, c ≠ request_sid) connections
  else filter (λ c, c = request_sid) connections.

(** A connection is bound when the handlers find a username for it. *)
Definition session (users : list (sid * string)) (c : sid) : option string :=
  truthy (PyDict.get users c).

(** ** Concrete clients and payloads *)

(** A store that answers, and that has records of ["alice"]. *)
Definition store_up : Base44Client := {|
  get_messages :=
    Ok (JList [JObj [("username", JStr "alice"); ("message", JStr "hello");
                     ("createdAt", JStr "2024-01-01T00:00:00Z")]]);
  post_message := λ username message,
    Ok (JObj [("username", JStr username); ("message", JStr message)]);
  is_username_taken := λ username, Ok (bool_decide (username = "alice"))
|}.

(** A store whose every request fails. *)
Definition store_down : Base44Client := {|
  get_messages := Failed "503 Server Error";
  post_message := λ _ _, Failed "503 Server Error";
  is_username_taken := λ _, Failed "503 Server Error"
|}.

Definition with_username (u : string) : gmap string string :=
  {["username" := u]}.
Definition with_message (m : string) : gmap string string :=
  {["message" := m]}.

(** ** The specification's readings that the handlers do not meet *)




(** After a bound connection leaves, its username is in no user list. *)
Definition departed_username_gone (c : sid) (users : list (sid * string))
    : Prop :=
  ∀ u, session users c = Some u →
       u ∉ PyDict.values (users_after (handle_disconnect c) users).

(** ** A connection's own events *)

(** What one request makes of the entry [b] of connection [c]: a
    [register_user] of [c] that carries a username writes it, a [disconnect]
    of [c] drops the entry, any other request leaves it. *)
Definition binding_step (c : sid) (b : option string) (rq : request)
    : option string :=
  if decide (req_sid rq = c) then
    match req_event rq with
    | register_user data =>
        match data !! "username" with
        | Some u => Some u
        | None => b
        end
    | disconnect => None
    | _ => b
    end
  else b.

(** The store calls a request is expected to make. *)
Definition store_calls_of (rq : request) (users : list (sid * string))
    : list store_call :=
  match req_event rq with
  | register_user data =>
      match data !! "username" with
      | Some _ => [get_messages_call]
      | None => []
      end
  | new_message data =>
      match session users (req_sid rq), data !! "message" with
      | Some u, Some text => [post_message_call u text]
      | _, _ => []
      end
  | _ => []
  end.

(** Every event a disconnect emits spares the departing connection. *)
Definition departing_not_targeted (c : sid) (users : list (sid * string))
    (connections : list sid) : Prop :=
  ∀ e, e ∈ emitted (log_of (handle_disconnect c) users) →
       c ∉ recipients connections c e.

(** ** Sessions, read off the events *)




(** * Facts about the dictionary operations *)

Module PyDictFacts.
Import PyDict.
Section facts.
Context {K V : Type} `{EqDecision K}.
Implicit Types (d : list (K * V)) (k : K) (v : V).

Lemma get_set_eq d k v : get (set d k v) k = Some v.
Proof.
  induction d as [|[k' v'] d IH]; simpl.
  - by rewrite decide_True.
  - destruct (decide (k' = k)); simpl.
    + by rewrite decide_True.
    + by rewrite decide_False.
Qed.

Lemma get_set_ne d k k' v : k' ≠ k → get (set d k v) k' = get d k'.
Proof.
  intros Hne. induction d as [|[k0 v0] d IH]; simpl.
  - by rewrite decide_False.
  - destruct (decide (k0 = k)) as [->|]; simpl.
    + by rewrite !decide_False.
    + by rewrite IH.
Qed.

Lemma remove_others d k : remove d k = others k d.
Proof.
  unfold others. induction d as [|[k' v'] d IH]; [done|]; simpl.
  destruct (decide (k' = k)) as [->|].
  - by rewrite filter_cons_False; [|simpl; auto].
  - by rewrite filter_cons_True, IH.
Qed.

Lemma get_remove_eq d k : get (remove d k) k = None.
Proof.
  induction d as [|[k' v'] d IH]; [done|]; simpl.
  destruct (decide (k' = k)); [done|]. simpl. by rewrite decide_False.
Qed.

Lemma get_remove_ne d k k' : k' ≠ k → get (remove d k) k' = get d k'.
Proof.
  intros Hne. induction d as [|[k0 v0] d IH]; [done|]; simpl.
  destruct (decide (k0 = k)) as [->|]; simpl.
  - by rewrite decide_False.
  - by rewrite IH.
Qed.

Lemma others_set d k v : others k (set d k v) = others k d.
Proof.
  unfold others. induction d as [|[k' v'] d IH]; simpl.
  - by rewrite filter_cons_False; [|simpl; auto].
  - destruct (decide (k' = k)) as [->|].
    + by rewrite !filter_cons_False; [| simpl; auto ..].
    + by rewrite !filter_cons_True, IH.
Qed.

Lemma others_remove d k : others k (remove d k) = others k d.
Proof.
  rewrite remove_others. unfold others.
  rewrite list_filter_filter. apply list_filter_iff. intros kv. tauto.
Qed.

Lemma get_None d k : get d k = None ↔ k ∉ keys d.
Proof.
  unfold keys. induction d as [|[k' v'] d IH]; simpl.
  - split; [intros _; apply not_elem_of_nil | done].
  - rewrite not_elem_of_cons. destruct (decide (k' = k)) as [->|].
    + split; [done | by intros [? _]].
    + rewrite IH. split; [by split; [apply not_eq_sym|] | by intros [_ ?]].
Qed.


Lemma set_fresh d k v : get d k = None → set d k v = d ++ [(k, v)].
Proof.
  induction d as [|[k' v'] d IH]; simpl; [done|].
  destruct (decide (k' = k)); [done|]. intros Hk. by rewrite IH.
Qed.


Lemma NoDup_keys_remove d k : NoDup (keys d) → NoDup (keys (remove d k)).
Proof.
  unfold keys. induction d as [|[k' v'] d IH]; simpl; [done|].
  rewrite NoDup_cons. intros [Hk' Hd].
  destruct (decide (k' = k)); [auto|]. simpl. rewrite NoDup_cons.
  split; [|auto]. intros Hin. apply Hk'.
  rewrite remove_others in Hin. unfold others in Hin.
  apply list_elem_of_fmap in Hin as [[k0 v0] [-> Hin]].
  apply list_elem_of_filter in Hin as [_ Hin].
  apply list_elem_of_fmap. by exists (k0, v0).
Qed.

Lemma get_Some d k v : NoDup (keys d) → get d k = Some v ↔ (k, v) ∈ d.
Proof.
  unfold keys. induction d as [|[k' v'] d IH]; simpl.
  - intros _. split; [done|]. by intros ?%not_elem_of_nil.
  - rewrite NoDup_cons. intros [Hk' Hd]. rewrite elem_of_cons.
    destruct (decide (k' = k)) as [->|].
    + split.
      * intros [= ->]. by left.
      * intros [[= ->]|Hin]; [done|].
        destruct Hk'. apply list_elem_of_fmap. by exists (k, v).
    + rewrite IH by done. split; [by right|].
      intros [[= ? ?]|?]; [congruence|done].
Qed.

Lemma elem_of_values d v :
  NoDup (keys d) → v ∈ values d ↔ ∃ k, get d k = Some v.
Proof.
  intros Hd. unfold values. rewrite list_elem_of_fmap. split.
  - intros [[k v'] [-> Hin]]. exists k. by apply get_Some.
  - intros [k Hk]. exists (k, v). split; [done|]. by apply get_Some.
Qed.

Lemma remove_absent d k : get d k = None → remove d k = d.
Proof.
  induction d as [|[k' v'] d IH]; [done|]; simpl.
  destruct (decide (k' = k)); [done|]. intros Hk. by rewrite IH.
Qed.

Lemma get_others d k k' : k' ≠ k → get (others k d) k' = get d k'.
Proof. intros Hne. rewrite <- remove_others. by apply get_remove_ne. Qed.

Lemma length_values_keys d : length (values d) = length (keys d).
Proof. unfold values, keys. by rewrite !length_fmap. Qed.





End facts.
End PyDictFacts.

(** * What each handler does, case by case *)

Section runs.
Context (base44 : Base44Client) (utcnow_isoformat : string) (c : sid).
Implicit Types (users : list (sid * string)) (data : gmap string string).

Lemma registration_missing_key data users :
  data !! "username" = None →
  handle_user_registration base44 c data users
  = (Raised (KeyError "username"), users, []).
Proof.
  intros Hdata. unfold handle_user_registration, subscript, mbind, M_bind, bind.
  by rewrite Hdata.
Qed.

Lemma registration_run data users u :
  data !! "username" = Some u →
  handle_user_registration base44 c data users
  = (Returned (), PyDict.set users c u,
     [Emit c (joined u); Emit c (user_list (PyDict.set users c u));
      Request get_messages_call]
     ++ match get_messages base44 with
        | Ok history => [Emit c (registration_success history)]
        | Failed msg =>
            [Print ("Error fetching history: " +:+ msg);
             Emit c (registration_success (JList []))]
        end).
Proof.
  intros Hdata. unfold handle_user_registration, subscript, mbind, M_bind, bind.
  rewrite Hdata. unfold try_except, remote. simpl.
  by destruct (get_messages base44).
Qed.

Lemma new_message_unbound data users :
  session users c = None →
  handle_new_message base44 utcnow_isoformat c data users
  = (Returned (), users, []).
Proof.
  unfold session. intros Hs.
  unfold handle_new_message, users_get, mbind, M_bind, bind.
  by rewrite Hs.
Qed.

Lemma new_message_missing_key data users u :
  session users c = Some u →
  data !! "message" = None →
  handle_new_message base44 utcnow_isoformat c data users
  = (Raised (KeyError "message"), users, []).
Proof.
  unfold session. intros Hs Hdata.
  unfold handle_new_message, users_get, subscript, mbind, M_bind, bind.
  by rewrite Hs, Hdata.
Qed.

Lemma new_message_run data users u text :
  session users c = Some u →
  data !! "message" = Some text →
  handle_new_message base44 utcnow_isoformat c data users
  = (Returned (), users,
     Request (post_message_call u text)
     :: match post_message base44 u text with
        | Ok _ => [Emit c (message_received u text (utcnow_isoformat +:+ "Z"))]
        | Failed msg =>
            [Print ("Error posting message to Base44: " +:+ msg);
             Emit c could_not_send]
        end).
Proof.
  unfold session. intros Hs Hdata.
  unfold handle_new_message, users_get, subscript, mbind, M_bind, bind.
  rewrite Hs, Hdata. unfold try_except, remote. simpl.
  by destruct (post_message base44 u text).
Qed.

Lemma typing_unbound users :
  session users c = None → handle_typing c users = (Returned (), users, []).
Proof.
  unfold session. intros Hs. unfold handle_typing, users_get, mbind, M_bind, bind.
  by rewrite Hs.
Qed.

Lemma typing_run users u :
  session users c = Some u →
  handle_typing c users
  = (Returned (), users,
     [Emit c (Emitted "show_typing" (Some (JObj [("username", JStr u)]))
                      true false)]).
Proof.
  unfold session. intros Hs. unfold handle_typing, users_get, mbind, M_bind, bind.
  by rewrite Hs.
Qed.

Lemma stop_typing_run users :
  handle_stop_typing c users
  = (Returned (), users, [Emit c (Emitted "hide_typing" None true false)]).
Proof. done. Qed.

Lemma disconnect_unbound users :
  session users c = None →
  handle_disconnect c users
  = (Returned (), PyDict.remove users c,
     [Print ("Client disconnected: " +:+ c)]).
Proof.
  unfold session. intros Hs.
  unfold handle_disconnect, users_pop, mbind, M_bind, bind.
  by rewrite Hs.
Qed.

Lemma disconnect_run users u :
  session users c = Some u →
  handle_disconnect c users
  = (Returned (), PyDict.remove users c,
     [Emit c (left_chat u); Emit c (user_list (PyDict.remove users c));
      Print ("Client disconnected: " +:+ c)]).
Proof.
  unfold session. intros Hs.
  unfold handle_disconnect, users_pop, mbind, M_bind, bind.
  by rewrite Hs.
Qed.

End runs.

(** * Delivery *)

Lemma room_of_sender (connections : list sid) (c : sid) :
  NoDup connections → c ∈ connections → filter (λ x, x = c) connections = [c].
Proof.
  induction connections as [|x xs IH]; [by intros _ ?%elem_of_nil|].
  rewrite NoDup_cons, elem_of_cons. intros [Hx Hxs] Hc.
  destruct (decide (x = c)) as [->|Hne].
  - rewrite filter_cons_True by done. f_equal.
    clear IH Hc Hxs. induction xs as [|y ys IH]; [done|].
    apply not_elem_of_cons in Hx as [Hy Hys].
    rewrite filter_cons_False by (intros ->; by apply Hy). by apply IH.
  - rewrite filter_cons_False by done. destruct Hc as [->|Hc]; [done|].
    by apply IH.
Qed.

Lemma recipients_broadcast connections c ev payload :
  recipients connections c (Emitted ev payload true true) = connections.
Proof. done. Qed.

Lemma recipients_sender connections c ev payload :
  NoDup connections → c ∈ connections →
  recipients connections c (Emitted ev payload false true) = [c].
Proof. apply room_of_sender. Qed.

(** * One request at a time *)

Section steps.
Import PyDict PyDictFacts.
Implicit Types (users : list (sid * string)) (rq : request).

(** What a request can do to the table. *)
Lemma users_after_handle rq users :
  users_after (handle rq) users
  = match req_event rq with
    | register_user data =>
        match data !! "username" with
        | Some u => set users (req_sid rq) u
        | None => users
        end
    | disconnect => remove users (req_sid rq)
    | _ => users
    end.
Proof.
  destruct rq as [base44 now c ev]. unfold users_after, handle. simpl.
  destruct ev as [|data|data| | |]; simpl; try done.
  - destruct (data !! "username") as [u|] eqn:Hdata.
    + by rewrite (registration_run _ _ _ _ u).
    + by rewrite registration_missing_key.
  - destruct (session users c) as [u|] eqn:Hs.
    + destruct (data !! "message") as [text|] eqn:Hdata.
      * by rewrite (new_message_run _ _ _ _ _ u text).
      * by rewrite (new_message_missing_key _ _ _ _ _ u).
    + by rewrite new_message_unbound.
  - destruct (session users c) as [u|] eqn:Hs.
    + by rewrite (typing_run _ _ u).
    + by rewrite typing_unbound.
  - destruct (session users c) as [u|] eqn:Hs.
    + by rewrite (disconnect_run _ _ u).
    + by rewrite disconnect_unbound.
Qed.



Lemma serve_cons_users rq rqs users :
  (serve (rq :: rqs) users).1 = (serve rqs (users_after (handle rq) users)).1.
Proof. simpl. by destruct (serve rqs (users_after (handle rq) users)). Qed.


Lemma get_after_handle rq users (c : sid) :
  get (users_after (handle rq) users) c = binding_step c (get users c) rq.
Proof.
  rewrite users_after_handle. unfold binding_step.
  destruct (decide (req_sid rq = c)) as [<-|Hne].
  - destruct (req_event rq) as [|data|data| | |]; try done.
    + destruct (data !! "username"); [|done]. apply get_set_eq.
    + apply get_remove_eq.
  - destruct (req_event rq) as [|data|data| | |]; try done.
    + destruct (data !! "username"); [|done]. by apply get_set_ne.
    + by apply get_remove_ne.
Qed.

Lemma get_serve rqs users (c : sid) :
  get (serve rqs users).1 c = foldl (binding_step c) (get users c) rqs.
Proof.
  revert users. induction rqs as [|rq rqs IH]; intros users; [done|].
  rewrite serve_cons_users, IH. simpl. by rewrite get_after_handle.
Qed.



End steps.

(** * Registration *)







(** * The user list *)



(** * Typing indicators *)

(** C4: [stop_typing] has no session test.  Sent by ["c2"], which never
    registered, it returns with [hide_typing] broadcast to every other
    connection, here ["c1"]; the [typing] handler on the same input emits
    nothing. *)
Theorem stop_typing_without_session_broadcasts :
  session [("c1", "alice")] "c2" = None
  ∧ handle_stop_typing "c2" [("c1", "alice")]
    = (Returned (), [("c1", "alice")],
       [Emit "c2" (Emitted "hide_typing" None true false)])
  ∧ recipients ["c1"; "c2"] "c2" (Emitted "hide_typing" None true false)
    = ["c1"]
  ∧ handle_typing "c2" [("c1", "alice")] = (Returned (), [("c1", "alice")], []).
Proof. by vm_compute. Qed.

(** * Relaying messages *)

(** C5: when the caller is bound and the store refuses the message, the
    handler returns with the table unchanged; its one store call is the
    failed post and its one [emit] is the system notice
    ["Error: Could not send message."], which goes to the caller and nobody
    else; no message is broadcast. *)
Theorem relay_failure_notifies_sender_only
    (base44 : Base44Client) (utcnow_isoformat : string) (c : sid)
    (data : gmap string string) (users : list (sid * string))
    (connections : list sid) (u text msg : string) :
  session users c = Some u →
  data !! "message" = Some text →
  post_message base44 u text = Failed msg →
  NoDup connections →
  c ∈ connections →
  result_of (handle_new_message base44 utcnow_isoformat c data) users
  = Returned ()
  ∧ users_after (handle_new_message base44 utcnow_isoformat c data) users
    = users
  ∧ requested (log_of (handle_new_message base44 utcnow_isoformat c data) users)
    = [post_message_call u text]
  ∧ emitted (log_of (handle_new_message base44 utcnow_isoformat c data) users)
    = [could_not_send]
  ∧ args could_not_send
    = Some (JObj [("message", JStr "Error: Could not send message.");
                  ("type", JStr "system")])
  ∧ recipients connections c could_not_send = [c].
Proof.
  intros Hs Hdata Hpost Hnodup Hc.
  unfold result_of, users_after, log_of.
  rewrite (new_message_run _ _ _ _ _ u text) by done. rewrite Hpost.
  split_and!; try done. by apply recipients_sender.
Qed.

Lemma relay_failure_notifies_sender_only_witness :
  emitted (log_of (handle_new_message store_down "2024-05-01T10:00:00" "c1"
                     (with_message "hi"))
                  [("c1", "alice"); ("c2", "bob")])
  = [could_not_send]
  ∧ recipients ["c1"; "c2"] "c1" could_not_send = ["c1"].
Proof.
  destruct (relay_failure_notifies_sender_only store_down
              "2024-05-01T10:00:00" "c1" (with_message "hi")
              [("c1", "alice"); ("c2", "bob")] ["c1"; "c2"]
              "alice" "hi" "503 Server Error")
    as (_ & _ & _ & Hemit & _ & Hto).
  - reflexivity.
  - reflexivity.
  - reflexivity.
  - apply (bool_decide_unpack _). vm_compute. exact I.
  - apply (bool_decide_unpack _). vm_compute. exact I.
  - split; [exact Hemit | exact Hto].
Defined.

(** C6: a [new_message] event from a connection without a session returns
    at once: the table is unchanged, the store is not called and nothing is
    emitted or printed, whatever the payload. *)
Theorem relay_without_session_is_silent
    (base44 : Base44Client) (utcnow_isoformat : string) (c : sid)
    (data : gmap string string) (users : list (sid * string)) :
  session users c = None →
  result_of (handle_new_message base44 utcnow_isoformat c data) users
  = Returned ()
  ∧ users_after (handle_new_message base44 utcnow_isoformat c data) users
    = users
  ∧ requested (log_of (handle_new_message base44 utcnow_isoformat c data) users)
    = []
  ∧ emitted (log_of (handle_new_message base44 utcnow_isoformat c data) users)
    = []
  ∧ log_of (handle_new_message base44 utcnow_isoformat c data) users = [].
Proof.
  intros Hs. unfold result_of, users_after, log_of.
  by rewrite new_message_unbound.
Qed.

Lemma relay_without_session_is_silent_witness :
  log_of (handle_new_message store_up "2024-05-01T10:00:00" "c2"
            (with_message "hi"))
         [("c1", "alice")] = [].
Proof.
  destruct (relay_without_session_is_silent store_up "2024-05-01T10:00:00"
              "c2" (with_message "hi") [("c1", "alice")])
    as (_ & _ & _ & _ & Hlog); [reflexivity|].
  exact Hlog.
Defined.

(** * Registration when the history cannot be fetched *)

(** C7 is about the [except] clause of lines 284-289.  The source writes
    that statement with braces, which Python rejects when it loads the
    file, so the clause is what the handler is written to do and not what
    the file as it stands does.  With the lines read as the [try]/[except]
    they are written to be, as in [handle_user_registration], a failed
    history fetch is caught: the registration returns and binds the
    caller, it emits the join notice and the user list to everyone and
    then [registration_success] with the empty history to the caller
    alone. *)
Lemma history_failure_as_the_except_clause_reads
    (base44 : Base44Client) (c : sid) (data : gmap string string)
    (users : list (sid * string)) (connections : list sid) (u msg : string) :
  data !! "username" = Some u →
  get_messages base44 = Failed msg →
  NoDup connections →
  c ∈ connections →
  result_of (handle_user_registration base44 c data) users = Returned ()
  ∧ users_after (handle_user_registration base44 c data) users
    = PyDict.set users c u
  ∧ log_of (handle_user_registration base44 c data) users
    = [Emit c (joined u); Emit c (user_list (PyDict.set users c u));
       Request get_messages_call;
       Print ("Error fetching history: " +:+ msg);
       Emit c (registration_success (JList []))]
  ∧ recipients connections c (registration_success (JList [])) = [c].
Proof.
  intros Hdata Hfetch Hnodup Hc.
  unfold result_of, users_after, log_of.
  rewrite (registration_run _ _ _ _ u) by done. rewrite Hfetch.
  split_and!; try done. by apply recipients_sender.
Qed.

(** * Disconnection *)

(** C8, as the specification states it, fails twice.  ["c1"] and ["c2"]
    are both bound to ["alice"]; when ["c1"] leaves, the refreshed user
    list still names ["alice"].  And the events of a disconnect are plain
    broadcasts: when ["c2"] leaves while the transport holds ["c1"] and
    ["c2"], both the leave notice and the user list are addressed to
    ["c2"] too. *)
Lemma departed_username_still_listed :
  ¬ departed_username_gone "c1" [("c1", "alice"); ("c2", "alice")]
  ∧ emitted (log_of (handle_disconnect "c1") [("c1", "alice"); ("c2", "alice")])
    = [left_chat "alice"; user_list [("c2", "alice")]]
  ∧ ¬ departing_not_targeted "c2" [("c1", "alice"); ("c2", "bob")]
        ["c1"; "c2"]
  ∧ recipients ["c1"; "c2"] "c2" (left_chat "bob") = ["c1"; "c2"]
  ∧ recipients ["c1"; "c2"] "c2" (user_list [("c1", "alice")])
    = ["c1"; "c2"].
Proof.
  split_and!; [|by vm_compute| |done|done].
  - intros Hclaim. apply (Hclaim "alice"); [done|]. vm_compute. by left.
  - intros Hclaim. apply (Hclaim (left_chat "bob")).
    + vm_compute. by left.
    + vm_compute. right. by left.
Qed.

(** C8, amended: a [disconnect] of a connection without a session emits
    nothing and calls no store, and leaves the table unchanged when the
    connection has no entry.  A [disconnect] of a bound connection removes
    its entry and then emits the leave notice and the user list of the
    remaining entries, both as broadcasts to every connection the transport
    holds: nobody is left out, so the departing connection is itself
    addressed as long as the transport holds it.  The refreshed list has
    lost the departing connection's entry; it names a username exactly when
    the entry of another connection holds it, which includes the departing
    username when another connection shares it. *)
Theorem disconnect_notifies_remaining
    (c : sid) (users : list (sid * string)) (connections : list sid) :
  NoDup (PyDict.keys users) →
  result_of (handle_disconnect c) users = Returned ()
  ∧ requested (log_of (handle_disconnect c) users) = []
  ∧ PyDict.get (users_after (handle_disconnect c) users) c = None
  ∧ PyDict.others c (users_after (handle_disconnect c) users)
    = PyDict.others c users
  ∧ match session users c with
    | None =>
        emitted (log_of (handle_disconnect c) users) = []
        ∧ users_after (handle_disconnect c) users
          = match PyDict.get users c with
            | None => users
            | Some _ => PyDict.remove users c
            end
    | Some u =>
        users_after (handle_disconnect c) users = PyDict.remove users c
        ∧ emitted (log_of (handle_disconnect c) users)
          = [left_chat u; user_list (PyDict.remove users c)]
        ∧ recipients connections c (left_chat u) = connections
        ∧ recipients connections c (user_list (PyDict.remove users c))
          = connections
        ∧ (c ∈ connections →
           c ∈ recipients connections c (left_chat u)
           ∧ c ∈ recipients connections c
                   (user_list (PyDict.remove users c)))
        ∧ ∀ v, v ∈ PyDict.values (PyDict.remove users c)
               ↔ ∃ c', c' ≠ c ∧ PyDict.get users c' = Some v
    end.
Proof.
  intros Hkeys.
  assert (users_after (handle_disconnect c) users = PyDict.remove users c)
    as Hafter.
  { unfold users_after. destruct (session users c) as [u|] eqn:Hs.
    - by rewrite (disconnect_run _ _ u).
    - by rewrite disconnect_unbound. }
  rewrite !Hafter. unfold result_of, log_of.
  destruct (session users c) as [u|] eqn:Hs.
  - rewrite (disconnect_run _ _ u) by done. simpl. split_and!; try done.
    + apply PyDictFacts.get_remove_eq.
    + apply PyDictFacts.others_remove.
    + intros v.
      rewrite PyDictFacts.elem_of_values by by apply PyDictFacts.NoDup_keys_remove.
      split.
      * intros [c' Hc']. exists c'. destruct (decide (c' = c)) as [->|Hne].
        -- by rewrite PyDictFacts.get_remove_eq in Hc'.
        -- by rewrite PyDictFacts.get_remove_ne in Hc'.
      * intros (c' & Hne & Hc'). exists c'.
        by rewrite PyDictFacts.get_remove_ne.
  - rewrite disconnect_unbound by done. simpl. split_and!; try done.
    + apply PyDictFacts.get_remove_eq.
    + apply PyDictFacts.others_remove.
    + destruct (PyDict.get users c) eqn:Hget; [done|].
      by apply PyDictFacts.remove_absent.
Qed.

Lemma disconnect_notifies_remaining_witness :
  users_after (handle_disconnect "c2") [("c1", "alice"); ("c2", "bob")]
  = [("c1", "alice")]
  ∧ emitted (log_of (handle_disconnect "c2") [("c1", "alice"); ("c2", "bob")])
    = [left_chat "bob"; user_list [("c1", "alice")]]
  ∧ recipients ["c1"; "c2"] "c2" (left_chat "bob") = ["c1"; "c2"]
  ∧ recipients ["c1"; "c2"] "c2" (user_list [("c1", "alice")])
    = ["c1"; "c2"].
Proof.
  destruct (disconnect_notifies_remaining "c2"
              [("c1", "alice"); ("c2", "bob")] ["c1"; "c2"])
    as (_ & _ & _ & _ & Hafter & Hemit & Hto & Hto' & _).
  - apply (bool_decide_unpack _). vm_compute. exact I.
  - split_and!; [exact Hafter | exact Hemit | exact Hto | exact Hto'].
Defined.

(** * Frame *)

(** C9: handling one event changes at most the caller's own entry.  The
    entry of every other connection reads as before, the other entries are
    the same and in the same order, and the table after the event is the
    table before it for [connect], [new_message], [typing] and
    [stop_typing], the table with the caller's entry written for
    [register_user], and the table without the caller's entry for
    [disconnect]. *)
Theorem handlers_touch_only_the_callers_entry
    (rq : request) (users : list (sid * string)) (c' : sid) :
  c' ≠ req_sid rq →
  PyDict.get (users_after (handle rq) users) c' = PyDict.get users c'
  ∧ PyDict.others (req_sid rq) (users_after (handle rq) users)
    = PyDict.others (req_sid rq) users
  ∧ users_after (handle rq) users
    = match req_event rq with
      | register_user data =>
          match data !! "username" with
          | Some u => PyDict.set users (req_sid rq) u
          | None => users
          end
      | disconnect => PyDict.remove users (req_sid rq)
      | connect | new_message _ | typing | stop_typing => users
      end.
Proof.
  intros Hne. rewrite !users_after_handle.
  destruct (req_event rq) as [|data|data| | |]; try done.
  - destruct (data !! "username") as [u|]; [|done]. split_and!; [| |done].
    + by apply PyDictFacts.get_set_ne.
    + apply PyDictFacts.others_set.
  - split_and!; [| |done].
    + by apply PyDictFacts.get_remove_ne.
    + apply PyDictFacts.others_remove.
Qed.

Lemma handlers_touch_only_the_callers_entry_witness :
  PyDict.get (users_after (handle (Req store_up "2024-05-01T10:00:00" "c2"
                                       (register_user (with_username "bob"))))
                          [("c1", "alice"); ("c2", "carol")]) "c1"
  = Some "alice".
Proof.
  destruct (handlers_touch_only_the_callers_entry
              (Req store_up "2024-05-01T10:00:00" "c2"
                   (register_user (with_username "bob")))
              [("c1", "alice"); ("c2", "carol")] "c1")
    as (Hget & _); [discriminate|].
  exact Hget.
Defined.

(** * Payloads without the expected key *)

(** C10: a [register_user] payload without ['username'] makes the handler
    raise [KeyError] at once, whoever sends it, bound or not; a
    [new_message] payload without ['message'] makes the handler raise
    [KeyError] when the sender is bound (an unbound sender is dropped before
    the payload is read).  No [except] clause catches the error, the table
    is unchanged, and nothing was printed, asked of the store or emitted. *)
Theorem missing_key_raises_before_any_effect
    (base44 : Base44Client) (utcnow_isoformat : string) (c : sid)
    (registration message : gmap string string)
    (users : list (sid * string)) :
  registration !! "username" = None →
  message !! "message" = None →
  handle_user_registration base44 c registration users
  = (Raised (KeyError "username"), users, [])
  ∧ handle_new_message base44 utcnow_isoformat c message users
    = match session users c with
      | Some _ => (Raised (KeyError "message"), users, [])
      | None => (Returned (), users, [])
      end.
Proof.
  intros Hreg Hmsg. split.
  - by apply registration_missing_key.
  - destruct (session users c) as [u|] eqn:Hs.
    + by apply (new_message_missing_key _ _ _ _ _ u).
    + by apply new_message_unbound.
Qed.

Lemma missing_key_raises_before_any_effect_witness :
  handle_user_registration store_up "c1" ∅ [("c1", "alice")]
  = (Raised (KeyError "username"), [("c1", "alice")], [])
  ∧ handle_new_message store_up "2024-05-01T10:00:00" "c1" ∅ [("c1", "alice")]
    = (Raised (KeyError "message"), [("c1", "alice")], [])
  ∧ handle_user_registration store_up "c2" ∅ [("c1", "alice")]
    = (Raised (KeyError "username"), [("c1", "alice")], []).
Proof.
  destruct (missing_key_raises_before_any_effect store_up
              "2024-05-01T10:00:00" "c1" ∅ ∅ [("c1", "alice")])
    as [Hreg Hmsg]; [reflexivity | reflexivity |].
  destruct (missing_key_raises_before_any_effect store_up
              "2024-05-01T10:00:00" "c2" ∅ ∅ [("c1", "alice")])
    as [Hreg' _]; [reflexivity | reflexivity |].
  split_and!; [exact Hreg | exact Hmsg | exact Hreg'].
Defined.

(** * Further properties of the handlers *)

(** ** More on the dictionary operations *)

Module PyDictMore.
Import PyDict PyDictFacts.
Section facts.
Context {K V : Type} `{EqDecision K}.
Implicit Types (d : list (K * V)) (k : K) (v : V).

Lemma remove_set d k v : remove (set d k v) k = remove d k.
Proof.
  induction d as [|[k' v'] d IH]; simpl.
  - by rewrite decide_True.
  - destruct (decide (k' = k)) as [->|]; simpl.
    + by rewrite decide_True.
    + by rewrite decide_False, IH.
Qed.

Lemma set_same d k v : get d k = Some v → set d k v = d.
Proof.
  induction d as [|[k' v'] d IH]; simpl; [done|].
  destruct (decide (k' = k)) as [->|]; [by intros [= ->]|].
  intros Hk. by rewrite IH.
Qed.

Lemma values_set_fresh d k v :
  get d k = None → values (set d k v) = values d ++ [v].
Proof.
  intros Hk. rewrite set_fresh by done. unfold values. by rewrite fmap_app.
Qed.

Lemma remove_remove d k : remove (remove d k) k = remove d k.
Proof. apply remove_absent, get_remove_eq. Qed.

End facts.
End PyDictMore.

(** ** The availability route *)

(** X1: [/api/check_username] never changes the table and never emits.
    Without a [username] parameter, or with an empty one, it answers 400
    with the error body and does not call the store; with a non-empty one
    its one store call asks whether that name is taken. *)
Theorem check_username_answers
    (base44 : Base44Client) (request_args : gmap string string)
    (users : list (sid * string)) :
  users_after (check_username base44 request_args) users = users
  ∧ emitted (log_of (check_username base44 request_args) users) = []
  ∧ match truthy (request_args !! "username") with
    | None =>
        check_username base44 request_args users
        = (Returned (JObj [("error", JStr "Username parameter is required")],
                     400%Z),
           users, [])
    | Some u =>
        log_of (check_username base44 request_args) users
        = [Request (is_username_taken_call u)]
    end.
Proof.
  unfold users_after, result_of, log_of, check_username.
  destruct (truthy (request_args !! "username")) as [u|]; [|done].
  unfold try_except, remote, mbind, M_bind, bind.
  by destruct (is_username_taken base44 u).
Qed.

(** ** Typing indicators *)

(** X2: whatever a [typing] or [stop_typing] event emits goes to every
    connection but the sender, and never to the sender. *)
Theorem typing_events_skip_the_sender
    (rq : request) (users : list (sid * string)) (connections : list sid)
    (e : emit_call) :
  req_event rq = typing ∨ req_event rq = stop_typing →
  e ∈ emitted (log_of (handle rq) users) →
  recipients connections (req_sid rq) e
  = filter (λ x, x ≠ req_sid rq) connections
  ∧ req_sid rq ∉ recipients connections (req_sid rq) e.
Proof.
  intros Hev He.
  assert (broadcast e = true ∧ include_self e = false) as [Hb Hi].
  { destruct rq as [base44 now c ev]. unfold log_of, handle in He.
    simpl in *. destruct Hev as [-> | ->]; simpl in He.
    - destruct (session users c) as [u|] eqn:Hs.
      + rewrite (typing_run _ _ u) in He by done. simpl in He.
        by apply list_elem_of_singleton in He as ->.
      + rewrite typing_unbound in He by done. by apply elem_of_nil in He.
    - by apply list_elem_of_singleton in He as ->. }
  unfold recipients. rewrite Hb, Hi. split; [done|].
  intros [Hc _]%list_elem_of_filter. by apply Hc.
Qed.

Lemma typing_events_skip_the_sender_witness :
  recipients ["c1"; "c2"; "c3"] "c2"
             (Emitted "show_typing" (Some (JObj [("username", JStr "bob")]))
                      true false)
  = ["c1"; "c3"].
Proof.
  destruct (typing_events_skip_the_sender
              (Req store_up "2024-05-01T10:00:00" "c2" typing)
              [("c1", "alice"); ("c2", "bob")] ["c1"; "c2"; "c3"]
              (Emitted "show_typing" (Some (JObj [("username", JStr "bob")]))
                       true false))
    as [Hto _].
  - left. reflexivity.
  - apply list_elem_of_singleton. reflexivity.
  - exact Hto.
Defined.

(** ** Relaying messages *)

(** X3: a chat message is broadcast only after the store has accepted it.
    Every broadcast a [new_message] event emits is the relayed message: the
    sender is bound, the payload carries the text, the post returned, and
    the event names the sender by the username of the table (not by
    anything in the payload) and is stamped with the server's clock
    followed by ["Z"]. *)
Theorem broadcast_message_was_stored
    (base44 : Base44Client) (utcnow_isoformat : string) (c : sid)
    (data : gmap string string) (users : list (sid * string))
    (e : emit_call) :
  e ∈ emitted (log_of (handle_new_message base44 utcnow_isoformat c data) users) →
  broadcast e = true →
  ∃ u text record,
    session users c = Some u
    ∧ data !! "message" = Some text
    ∧ post_message base44 u text = Ok record
    ∧ e = message_received u text (utcnow_isoformat +:+ "Z").
Proof.
  unfold log_of. intros He Hb.
  destruct (session users c) as [u|] eqn:Hs.
  - destruct (data !! "message") as [text|] eqn:Hdata.
    + rewrite (new_message_run _ _ _ _ _ u text) in He by done. simpl in He.
      destruct (post_message base44 u text) as [record|msg] eqn:Hpost;
        simpl in He; apply list_elem_of_singleton in He as ->.
      * by exists u, text, record.
      * done.
    + rewrite (new_message_missing_key _ _ _ _ _ u) in He by done.
      by apply elem_of_nil in He.
  - rewrite new_message_unbound in He by done. by apply elem_of_nil in He.
Qed.

Lemma broadcast_message_was_stored_witness :
  ∃ u text record,
    session [("c1", "alice"); ("c2", "bob")] "c1" = Some u
    ∧ with_message "hi" !! "message" = Some text
    ∧ post_message store_up u text = Ok record
    ∧ message_received "alice" "hi" "2024-05-01T10:00:00Z"
      = message_received u text ("2024-05-01T10:00:00" +:+ "Z").
Proof.
  apply (broadcast_message_was_stored store_up "2024-05-01T10:00:00" "c1"
           (with_message "hi") [("c1", "alice"); ("c2", "bob")]
           (message_received "alice" "hi" "2024-05-01T10:00:00Z")).
  - apply list_elem_of_singleton. reflexivity.
  - reflexivity.
Defined.

(** X4: when the sender is bound and the store accepts the message, the
    handler posts it once and then emits one event, the message, to every
    connection of the transport, the sender included.  The record the store
    returns is not used, and the table is unchanged. *)
Theorem relay_success_reaches_everyone
    (base44 : Base44Client) (utcnow_isoformat : string) (c : sid)
    (data : gmap string string) (users : list (sid * string))
    (connections : list sid) (u text : string) (record : json) :
  session users c = Some u →
  data !! "message" = Some text →
  post_message base44 u text = Ok record →
  handle_new_message base44 utcnow_isoformat c data users
  = (Returned (), users,
     [Request (post_message_call u text);
      Emit c (message_received u text (utcnow_isoformat +:+ "Z"))])
  ∧ recipients connections c
      (message_received u text (utcnow_isoformat +:+ "Z"))
    = connections.
Proof.
  intros Hs Hdata Hpost. split; [|done].
  rewrite (new_message_run _ _ _ _ _ u text) by done. by rewrite Hpost.
Qed.

Lemma relay_success_reaches_everyone_witness :
  handle_new_message store_up "2024-05-01T10:00:00" "c1" (with_message "hi")
                     [("c1", "alice"); ("c2", "bob")]
  = (Returned (), [("c1", "alice"); ("c2", "bob")],
     [Request (post_message_call "alice" "hi");
      Emit "c1" (message_received "alice" "hi" "2024-05-01T10:00:00Z")])
  ∧ recipients ["c1"; "c2"] "c1"
      (message_received "alice" "hi" "2024-05-01T10:00:00Z")
    = ["c1"; "c2"].
Proof.
  apply (relay_success_reaches_everyone store_up "2024-05-01T10:00:00" "c1"
           (with_message "hi") [("c1", "alice"); ("c2", "bob")] ["c1"; "c2"]
           "alice" "hi"
           (JObj [("username", JStr "alice"); ("message", JStr "hi")]));
    reflexivity.
Defined.

(** ** Registration *)

(** X5: when the history fetch succeeds, a registration emits three events
    in this order: the join notice and the user list to every connection,
    then [registration_success] with the history exactly as the store
    returned it, to the caller alone. *)
Theorem registration_delivers_history_to_caller
    (base44 : Base44Client) (c : sid) (data : gmap string string)
    (users : list (sid * string)) (connections : list sid) (u : string)
    (history : json) :
  data !! "username" = Some u →
  get_messages base44 = Ok history →
  NoDup connections →
  c ∈ connections →
  emitted (log_of (handle_user_registration base44 c data) users)
  = [joined u; user_list (PyDict.set users c u); registration_success history]
  ∧ recipients connections c (joined u) = connections
  ∧ recipients connections c (user_list (PyDict.set users c u)) = connections
  ∧ recipients connections c (registration_success history) = [c].
Proof.
  intros Hdata Hfetch Hnodup Hc. unfold log_of.
  rewrite (registration_run _ _ _ _ u) by done. rewrite Hfetch.
  split_and!; try done. by apply recipients_sender.
Qed.

Lemma registration_delivers_history_to_caller_witness :
  recipients ["c1"; "c2"] "c2" (registration_success (JList [])) = ["c2"].
Proof.
  destruct (registration_delivers_history_to_caller
              {| get_messages := Ok (JList []);
                 post_message := λ _ _, Failed "unused";
                 is_username_taken := λ _, Ok false |}
              "c2" (with_username "bob") [("c1", "alice")] ["c1"; "c2"]
              "bob" (JList []))
    as (_ & _ & _ & Hto).
  - reflexivity.
  - reflexivity.
  - apply (bool_decide_unpack _). vm_compute. exact I.
  - apply (bool_decide_unpack _). vm_compute. exact I.
  - exact Hto.
Defined.

(** X6: a connection without an entry that registers is listed last: the
    user list broadcast by the registration is the previous list followed
    by the new username, one longer than before. *)
Theorem new_connection_is_listed_last
    (base44 : Base44Client) (c : sid) (data : gmap string string)
    (users : list (sid * string)) (u : string) :
  PyDict.get users c = None →
  data !! "username" = Some u →
  user_lists (log_of (handle_user_registration base44 c data) users)
  = [Some (JList (JStr <$> (PyDict.values users ++ [u])))]
  ∧ PyDict.values (users_after (handle_user_registration base44 c data) users)
    = PyDict.values users ++ [u].
Proof.
  intros Hget Hdata. unfold log_of, users_after.
  rewrite (registration_run _ _ _ _ u) by done. simpl.
  rewrite PyDictMore.values_set_fresh by done.
  split; [|done]. by destruct (get_messages base44).
Qed.

Lemma new_connection_is_listed_last_witness :
  PyDict.values (users_after (handle_user_registration store_up "c3"
                                (with_username "carol"))
                             [("c1", "alice"); ("c2", "bob")])
  = ["alice"; "bob"; "carol"].
Proof.
  destruct (new_connection_is_listed_last store_up "c3" (with_username "carol")
              [("c1", "alice"); ("c2", "bob")] "carol") as [_ Hvalues];
    [reflexivity | reflexivity |].
  exact Hvalues.
Defined.

(** X7: registering under the username the connection is already bound to
    leaves the table as it is, and still broadcasts the join notice and the
    user list again. *)
Theorem same_name_registration_keeps_table
    (base44 : Base44Client) (c : sid) (data : gmap string string)
    (users : list (sid * string)) (u : string) :
  PyDict.get users c = Some u →
  data !! "username" = Some u →
  users_after (handle_user_registration base44 c data) users = users
  ∧ take 2 (emitted (log_of (handle_user_registration base44 c data) users))
    = [joined u; user_list users].
Proof.
  intros Hget Hdata. unfold log_of, users_after.
  rewrite (registration_run _ _ _ _ u) by done. simpl.
  rewrite PyDictMore.set_same by done.
  split; [done|]. by destruct (get_messages base44).
Qed.

Lemma same_name_registration_keeps_table_witness :
  users_after (handle_user_registration store_up "c1" (with_username "alice"))
              [("c1", "alice"); ("c2", "bob")]
  = [("c1", "alice"); ("c2", "bob")].
Proof.
  destruct (same_name_registration_keeps_table store_up "c1"
              (with_username "alice") [("c1", "alice"); ("c2", "bob")] "alice")
    as [Hafter _]; [reflexivity | reflexivity |].
  exact Hafter.
Defined.

(** X8: an empty username is stored but does not bind.  After a
    registration with [username] empty the table has an entry for the
    caller and the user list names the empty string, yet the handlers find
    no session: a message from the caller is dropped without a store call,
    and its disconnect removes the entry without a leave notice or a new
    user list. *)
Theorem empty_username_is_listed_but_unbound
    (base44 : Base44Client) (utcnow_isoformat : string) (c : sid)
    (data message : gmap string string) (users : list (sid * string)) :
  data !! "username" = Some "" →
  PyDict.get (users_after (handle_user_registration base44 c data) users) c
  = Some ""
  ∧ "" ∈ PyDict.values
           (users_after (handle_user_registration base44 c data) users)
  ∧ session (users_after (handle_user_registration base44 c data) users) c
    = None
  ∧ log_of (handle_new_message base44 utcnow_isoformat c message)
           (users_after (handle_user_registration base44 c data) users)
    = []
  ∧ emitted (log_of (handle_disconnect c)
               (users_after (handle_user_registration base44 c data) users))
    = []
  ∧ users_after (handle_disconnect c)
      (users_after (handle_user_registration base44 c data) users)
    = PyDict.remove users c.
Proof.
  intros Hdata. unfold users_after at 1 2 3 4 5 7.
  rewrite (registration_run _ _ _ _ "") by done. simpl.
  assert (PyDict.get (PyDict.set users c "") c = Some "") as Hget
    by apply PyDictFacts.get_set_eq.
  assert (session (PyDict.set users c "") c = None) as Hs
    by (unfold session; by rewrite Hget).
  split_and!; try done.
  - unfold PyDict.values. apply list_elem_of_fmap.
    exists (c, ""). split; [done|].
    clear Hget Hs. induction users as [|[k v] users IH]; simpl.
    + by left.
    + destruct (decide (k = c)); [by left | by right].
  - unfold log_of. by rewrite new_message_unbound.
  - unfold log_of. by rewrite disconnect_unbound.
  - unfold users_after. rewrite disconnect_unbound by done. simpl.
    apply PyDictMore.remove_set.
Qed.

Lemma empty_username_is_listed_but_unbound_witness :
  session (users_after (handle_user_registration store_up "c2"
                          (with_username ""))
                       [("c1", "alice")]) "c2"
  = None.
Proof.
  destruct (empty_username_is_listed_but_unbound store_up
              "2024-05-01T10:00:00" "c2" (with_username "")
              (with_message "hi") [("c1", "alice")])
    as (_ & _ & Hs & _); [reflexivity|].
  exact Hs.
Defined.

(** ** Registration and disconnection together *)

(** X9: a disconnect undoes a registration.  Whatever the payload, the
    table after [register_user] and then [disconnect] of the same
    connection is the table before without the connection's entry, which
    is the table before when the connection had no entry. *)
Theorem disconnect_undoes_registration
    (base44 : Base44Client) (c : sid) (data : gmap string string)
    (users : list (sid * string)) :
  users_after (handle_disconnect c)
    (users_after (handle_user_registration base44 c data) users)
  = PyDict.remove users c
  ∧ users_after (handle_disconnect c)
      (users_after (handle_user_registration base44 c data) users)
    = match PyDict.get users c with
      | None => users
      | Some _ => PyDict.remove users c
      end.
Proof.
  assert (∀ users', users_after (handle_disconnect c) users'
                    = PyDict.remove users' c) as Hpop.
  { intros users'. unfold users_after.
    destruct (session users' c) as [u|] eqn:Hs.
    - by rewrite (disconnect_run _ _ u).
    - by rewrite disconnect_unbound. }
  rewrite !Hpop.
  assert (PyDict.remove
            (users_after (handle_user_registration base44 c data) users) c
          = PyDict.remove users c) as ->.
  { unfold users_after. destruct (data !! "username") as [u|] eqn:Hdata.
    - rewrite (registration_run _ _ _ _ u) by done. simpl.
      apply PyDictMore.remove_set.
    - by rewrite registration_missing_key. }
  split; [done|].
  destruct (PyDict.get users c) eqn:Hget; [done|].
  by apply PyDictFacts.remove_absent.
Qed.

(** X10: after its disconnect a connection is unbound, whatever the table
    was: it has no entry, a second disconnect emits nothing and leaves the
    table as it is, and its [typing] and [new_message] events emit nothing
    and call no store. *)
Theorem disconnected_connection_is_silent
    (base44 : Base44Client) (utcnow_isoformat : string) (c : sid)
    (data : gmap string string) (users : list (sid * string)) :
  (c ∉ PyDict.keys (users_after (handle_disconnect c) users))
  ∧ handle_disconnect c (users_after (handle_disconnect c) users)
    = (Returned (), users_after (handle_disconnect c) users,
       [Print ("Client disconnected: " +:+ c)])
  ∧ handle_typing c (users_after (handle_disconnect c) users)
    = (Returned (), users_after (handle_disconnect c) users, [])
  ∧ handle_new_message base44 utcnow_isoformat c data
      (users_after (handle_disconnect c) users)
    = (Returned (), users_after (handle_disconnect c) users, []).
Proof.
  assert (users_after (handle_disconnect c) users = PyDict.remove users c)
    as ->.
  { unfold users_after. destruct (session users c) as [u|] eqn:Hs.
    - by rewrite (disconnect_run _ _ u).
    - by rewrite disconnect_unbound. }
  assert (PyDict.get (PyDict.remove users c) c = None) as Hget
    by apply PyDictFacts.get_remove_eq.
  assert (session (PyDict.remove users c) c = None) as Hs
    by (unfold session; by rewrite Hget).
  split_and!.
  - by apply PyDictFacts.get_None.
  - rewrite disconnect_unbound by done. by rewrite PyDictMore.remove_remove.
  - by apply typing_unbound.
  - by apply new_message_unbound.
Qed.

(** ** Every handler *)

(** X11: a handler calls the store at most once, and never to ask whether
    a name is taken: a registration that carries a username fetches the
    history, a message with a text from a bound connection is posted, and
    every other event ([connect], [typing], [stop_typing], [disconnect], a
    payload without its key, a message from an unbound connection) makes
    no store call. *)
Theorem store_calls_of_a_request (rq : request) (users : list (sid * string)) :
  requested (log_of (handle rq) users) = store_calls_of rq users
  ∧ (length (requested (log_of (handle rq) users)) ≤ 1)%nat
  ∧ ∀ u, is_username_taken_call u ∉ requested (log_of (handle rq) users).
Proof.
  assert (requested (log_of (handle rq) users) = store_calls_of rq users)
    as Hcalls.
  { destruct rq as [base44 now c ev].
    unfold log_of, handle, store_calls_of. simpl.
    destruct ev as [|data|data| | |]; simpl; try done.
    - destruct (data !! "username") as [u|] eqn:Hdata.
      + rewrite (registration_run _ _ _ _ u) by done. simpl.
        by destruct (get_messages base44).
      + by rewrite registration_missing_key.
    - destruct (session users c) as [u|] eqn:Hs.
      + destruct (data !! "message") as [text|] eqn:Hdata.
        * rewrite (new_message_run _ _ _ _ _ u text) by done. simpl.
          by destruct (post_message base44 u text).
        * by rewrite (new_message_missing_key _ _ _ _ _ u).
      + by rewrite new_message_unbound.
    - destruct (session users c) as [u|] eqn:Hs.
      + by rewrite (typing_run _ _ u).
      + by rewrite typing_unbound.
    - destruct (session users c) as [u|] eqn:Hs.
      + by rewrite (disconnect_run _ _ u).
      + by rewrite disconnect_unbound. }
  rewrite Hcalls. unfold store_calls_of.
  split_and!; [done| |].
  - destruct (req_event rq) as [|data|data| | |]; simpl; try lia.
    + destruct (data !! "username"); simpl; lia.
    + destruct (session users (req_sid rq)), (data !! "message"); simpl; lia.
  - intros u.
    destruct (req_event rq) as [|data|data| | |]; try apply not_elem_of_nil.
    + destruct (data !! "username"); [|apply not_elem_of_nil].
      by intros ?%list_elem_of_singleton.
    + destruct (session users (req_sid rq)), (data !! "message");
        try apply not_elem_of_nil.
      by intros ?%list_elem_of_singleton.
Qed.

(** ** Runs of requests *)

(** X13: the entry of a connection depends on its own events alone.  After
    any run of requests, from any table, the username the table holds for
    a connection is the one of its latest [register_user] that carried a
    username, unless it disconnected since; the requests of the other
    connections, and its own other events, do not count. *)
Theorem entry_follows_own_events
    (rqs : list request) (users : list (sid * string)) (c : sid) :
  PyDict.get (serve rqs users).1 c
  = foldl (binding_step c) (PyDict.get users c) rqs.
Proof. apply get_serve. Qed.

Lemma binding_source (c : sid) (rqs : list request) (b : option string)
    (u : string) :
  foldl (binding_step c) b rqs = Some u →
  b = Some u
  ∨ ∃ rq data, rq ∈ rqs ∧ req_sid rq = c
               ∧ req_event rq = register_user data
               ∧ data !! "username" = Some u.
Proof.
  revert b. induction rqs as [|rq rqs IH]; intros b; simpl; [by left|].
  intros [Hb|(rq' & data & Hin & Hrest)]%IH.
  - unfold binding_step in Hb.
    destruct (decide (req_sid rq = c)) as [Hc|]; [|by left].
    destruct (req_event rq) as [|data|data| | |] eqn:Hev; try (by left).
    destruct (data !! "username") as [u'|] eqn:Hdata; [|by left].
    right. exists rq, data. split_and!; [by left|done|done|congruence].
  - right. exists rq', data. split; [by right | done].
Qed.

(** X14: a username is in the table only because its connection sent it.
    If, after a run from the empty table, the table holds a username for a
    connection, then the run contains a [register_user] of that connection
    whose payload carries that username. *)
Theorem entry_was_registered
    (rqs : list request) (c : sid) (u : string) :
  PyDict.get (serve rqs []).1 c = Some u →
  ∃ rq data, rq ∈ rqs ∧ req_sid rq = c
             ∧ req_event rq = register_user data
             ∧ data !! "username" = Some u.
Proof.
  rewrite get_serve. simpl.
  by intros [?|?]%binding_source.
Qed.

Lemma entry_was_registered_witness :
  ∃ rq data,
    rq ∈ [Req store_up "2024-05-01T10:00:00" "c1"
              (register_user (with_username "alice"));
          Req store_up "2024-05-01T10:00:05" "c2" typing]
    ∧ req_sid rq = "c1"
    ∧ req_event rq = register_user data
    ∧ data !! "username" = Some "alice".
Proof.
  apply (entry_was_registered
           [Req store_up "2024-05-01T10:00:00" "c1"
                (register_user (with_username "alice"));
            Req store_up "2024-05-01T10:00:05" "c2" typing]
           "c1" "alice").
  reflexivity.
Defined.

(** X15: a message sent after a registration is posted under the
    registered name.  Once a connection has registered a non-empty
    username, its next [new_message] with a text is posted to the store
    under that username, whatever the table held before and whatever else
    the payload carries. *)
Theorem message_after_registration_uses_the_name
    (base44 base44' : Base44Client) (utcnow_isoformat : string) (c : sid)
    (data message : gmap string string) (users : list (sid * string))
    (u text : string) :
  data !! "username" = Some u →
  u ≠ "" →
  message !! "message" = Some text →
  session (users_after (handle_user_registration base44 c data) users) c
  = Some u
  ∧ requested (log_of (handle_new_message base44' utcnow_isoformat c message)
                 (users_after (handle_user_registration base44 c data) users))
    = [post_message_call u text].
Proof.
  intros Hdata Hu Hmsg.
  assert (session (users_after (handle_user_registration base44 c data) users) c
          = Some u) as Hs.
  { unfold users_after. rewrite (registration_run _ _ _ _ u) by done. simpl.
    unfold session. rewrite PyDictFacts.get_set_eq.
    by destruct u. }
  split; [done|]. unfold log_of at 1.
  rewrite (new_message_run _ _ _ _ _ u text) by done. simpl.
  by destruct (post_message base44' u text).
Qed.

Lemma message_after_registration_uses_the_name_witness :
  requested (log_of (handle_new_message store_down "2024-05-01T10:00:00" "c2"
                       (with_message "hi"))
               (users_after (handle_user_registration store_up "c2"
                               (with_username "bob"))
                            [("c1", "alice"); ("c2", "carol")]))
  = [post_message_call "bob" "hi"].
Proof.
  destruct (message_after_registration_uses_the_name store_up store_down
              "2024-05-01T10:00:00" "c2" (with_username "bob")
              (with_message "hi") [("c1", "alice"); ("c2", "carol")]
              "bob" "hi")
    as [_ Hcalls]; [reflexivity | discriminate | reflexivity |].
  exact Hcalls.
Defined.
